(** * adafruit_esp32spi.digitalio: DigitalIO for ESP32 over SPI

    A shallow embedding of [adafruit_esp32spi/digitalio.py] and the
    properties of its two classes, [Pin] and [DigitalInOut].

    The module is dynamically typed Python: arguments are arbitrary
    objects, exceptions leave earlier attribute stores in place, and the
    co-processor driver ([ESP_SPIcontrol]) is an external object that is
    only ever sent two commands.  The embedding therefore has
    - a type [pyval] of the Python values that can reach the module, with
      the three tests the source performs on them ([==] against an integer
      constant, [is] against a singleton, truthiness);
    - a state-and-exception monad [M] in which a raised exception keeps
      the state reached so far;
    - the driver as the log of commands it has received, oldest first. *)

From Stdlib Require Import ZArith List String DecimalString DecimalPos DecimalZ.
Import ListNotations.
Open Scope string_scope.
Open Scope Z_scope.
Open Scope list_scope.

(* ================================================================== *)
(** ** Python values *)

(** [Direction.INPUT] / [Direction.OUTPUT]: the two instances created at
    import time (lines 103-107). *)
Inductive Direction := INPUT | OUTPUT.

(** [DriveMode.PUSH_PULL] / [DriveMode.OPEN_DRAIN] (lines 96-100). *)
Inductive DriveMode := PUSH_PULL | OPEN_DRAIN.

(** Values a caller can pass.  [PyObject a] is any other object (for
    instance a fresh [Direction()]), known only by its identity [a]. *)
Inductive pyval :=
| PyNone
| PyBool (b : bool)
| PyInt (z : Z)
| PyStr (s : string)
| PyDirection (d : Direction)
| PyDriveMode (m : DriveMode)
| PyObject (a : nat).

Definition Direction_eqb (a b : Direction) : bool :=
  match a, b with
  | INPUT, INPUT | OUTPUT, OUTPUT => true
  | _, _ => false
  end.

Definition DriveMode_eqb (a b : DriveMode) : bool :=
  match a, b with
  | PUSH_PULL, PUSH_PULL | OPEN_DRAIN, OPEN_DRAIN => true
  | _, _ => false
  end.

(** [v is Direction.<d>] *)
Definition is_Direction (v : pyval) (d : Direction) : bool :=
  match v with
  | PyDirection d' => Direction_eqb d' d
  | _ => false
  end.

(** [v is DriveMode.<m>] *)
Definition is_DriveMode (v : pyval) (m : DriveMode) : bool :=
  match v with
  | PyDriveMode m' => DriveMode_eqb m' m
  | _ => false
  end.

(** [v != None] *)
Definition ne_None (v : pyval) : bool :=
  match v with
  | PyNone => false
  | _ => true
  end.

(** The integer a value compares equal to, if any: [True == 1] and
    [False == 0] hold in Python. *)
Definition as_int (v : pyval) : option Z :=
  match v with
  | PyInt z => Some z
  | PyBool b => Some (if b then 1 else 0)
  | _ => None
  end.

(** [v == n] for an integer constant [n] *)
Definition eq_int (v : pyval) (n : Z) : bool :=
  match as_int v with
  | Some z => z =? n
  | None => false
  end.

(** Truth value of [v], as in [1 if v else 0]. *)
Definition truthy (v : pyval) : bool :=
  match v with
  | PyNone => false
  | PyBool b => b
  | PyInt z => negb (z =? 0)
  | PyStr s => negb (String.eqb s EmptyString)
  | PyDirection _ | PyDriveMode _ | PyObject _ => true
  end.

(** Name of the type, as it appears in interpreter messages. *)
Definition type_name (v : pyval) : string :=
  match v with
  | PyNone => "NoneType"
  | PyBool _ => "bool"
  | PyInt _ => "int"
  | PyStr _ => "str"
  | PyDirection _ => "Direction"
  | PyDriveMode _ => "DriveMode"
  | PyObject _ => "object"
  end.

(** [str(v)], for the values whose text is fixed by the value; the text
    of any other object carries its address. *)
Definition str_ (v : pyval) : option string :=
  match v with
  | PyNone => Some "None"
  | PyBool b => Some (if b then "True" else "False")
  | PyInt z => Some (NilZero.string_of_int (Z.to_int z))
  | PyStr s => Some s
  | PyDirection _ | PyDriveMode _ | PyObject _ => None
  end.

(* ================================================================== *)
(** ** Exceptions *)

(** The first four constructors are the [raise] statements of the source
    with their message.  [MissingAttribute owner attr] is the
    [AttributeError] the interpreter itself raises when [attr] is looked
    up on an object or class named [owner] that does not have it (the
    two are one Python class). *)
Inductive exn :=
| AttributeError (msg : string)
| RuntimeError (msg : string)
| NotImplementedError (msg : string)
| TypeError (msg : string)
| MissingAttribute (owner attr : string).

(** The error names the specification uses, and the exception of the
    source each one stands for.  [UseAfterDeinitError] has no [raise] of
    its own: it is the failed attribute lookup on the released pin,
    [None]. *)
Inductive SpecError :=
| InvalidPinError
| InvalidModeError
| InvalidValueError
| InvalidDirectionError
| NotAnOutputError
| UnsupportedOperationError
| UseAfterDeinitError.

Fixpoint starts_with (pre s : string) : bool :=
  match pre, s with
  | EmptyString, _ => true
  | String a pre', String b s' => Ascii.eqb a b && starts_with pre' s'
  | String _ _, EmptyString => false
  end.

Definition spec_error (e : exn) : option SpecError :=
  match e with
  | AttributeError m =>
      if String.eqb m "Not a Direction" then Some InvalidDirectionError
      else if String.eqb m "Not an output" then Some NotAnOutputError
      else if starts_with "Pin " m then Some InvalidPinError
      else None
  | RuntimeError m =>
      if String.eqb m "Invalid mode defined" then Some InvalidModeError
      else if String.eqb m "Invalid value for pin" then Some InvalidValueError
      else None
  | NotImplementedError _ => Some UnsupportedOperationError
  | MissingAttribute owner _ =>
      if String.eqb owner "NoneType" then Some UseAfterDeinitError else None
  | TypeError _ => None
  end.

(* ================================================================== *)
(** ** State and exceptions *)

Inductive outcome (A : Type) :=
| Return (a : A)
| Raise (e : exn).
Arguments Return {A} a.
Arguments Raise {A} e.

(** A computation over a state [S]: it ends by returning or by raising,
    and in both cases hands back the state it reached. *)
Definition M (S A : Type) : Type := S -> outcome A * S.

Definition ret {S A} (a : A) : M S A := fun s => (Return a, s).

Definition raise {S A} (e : exn) : M S A := fun s => (Raise e, s).

Definition bind {S A B} (m : M S A) (k : A -> M S B) : M S B :=
  fun s =>
    match m s with
    | (Return a, s') => k a s'
    | (Raise e, s') => (Raise e, s')
    end.

Definition get {S} : M S S := fun s => (Return s, s).

Definition modify {S} (f : S -> S) : M S unit := fun s => (Return tt, f s).

Notation "x <- m ;; k" := (bind m (fun x => k))
  (at level 61, m at next level, right associativity).
Notation "m ;; k" := (bind m (fun _ => k))
  (at level 61, right associativity).

Definition result {S A} (r : outcome A * S) : outcome A := fst r.
Definition state_after {S A} (r : outcome A * S) : S := snd r.

Definition raises {A} (o : outcome A) : bool :=
  match o with
  | Raise _ => true
  | Return _ => false
  end.

(* ================================================================== *)
(** ** The co-processor driver *)

(** The two calls the module makes on its [esp] object. *)
Inductive command :=
| set_pin_mode (pin : pyval) (mode : Z)
| set_digital_write (pin : pyval) (level : Z).

(** The driver, seen from this module: the commands it was sent, in the
    order they were sent.  It is shared by every [Pin] made with it. *)
Definition ESP_SPIcontrol := list command.

(** What a method runs on: the object it is called on and the driver. *)
Record world (O : Type) := World { self : O; esp : ESP_SPIcontrol }.
Arguments World {O} self esp.
Arguments self {O} w.
Arguments esp {O} w.

Definition set_self {O} (f : O -> O) : M (world O) unit :=
  modify (fun w => World (f (self w)) (esp w)).

(** [self._esp.<command>(...)] *)
Definition send {O} (c : command) : M (world O) unit :=
  modify (fun w => World (self w) (esp w ++ [c])).

(* ================================================================== *)
(** ** class Pin (lines 31-93) *)

Module Pin.

Definition IN : Z := 0.
Definition OUT : Z := 1.
Definition LOW : Z := 0.
Definition HIGH : Z := 1.

Definition ESP32_GPIO_PINS : list Z :=
  [0; 1; 2; 4; 5;
   12; 13; 14; 15;
   16; 17; 18; 19;
   21; 22; 23; 25;
   26; 27; 32; 33].

(** Instance attributes; [_mode] and [_value] start from the class
    defaults [IN] and [LOW]. *)
Record t := mk { id : pyval; _mode : Z; _value : pyval }.

(** The data attributes of the class object, for lookups written
    [Pin.<name>]. *)
Definition class_attributes : list (string * pyval) :=
  [("IN", PyInt IN); ("OUT", PyInt OUT);
   ("LOW", PyInt LOW); ("HIGH", PyInt HIGH);
   ("_value", PyInt LOW); ("_mode", PyInt IN); ("id", PyNone)].

Fixpoint lookup (name : string) (l : list (string * pyval)) : option pyval :=
  match l with
  | [] => None
  | (k, v) :: l' => if String.eqb k name then Some v else lookup name l'
  end.

(** [Pin.<name>] *)
Definition getattr {S} (name : string) : M S pyval :=
  match lookup name class_attributes with
  | Some v => ret v
  | None => raise (MissingAttribute "Pin" name)
  end.

(** [esp_pin in self.ESP32_GPIO_PINS] *)
Definition in_pins (esp_pin : pyval) : bool :=
  match as_int esp_pin with
  | Some z => existsb (Z.eqb z) ESP32_GPIO_PINS
  | None => false
  end.

(** ["%d" % v]: defined on numbers only. *)
Definition format_d (v : pyval) : option string :=
  match as_int v with
  | Some z => Some (NilZero.string_of_int (Z.to_int z))
  | None => None
  end.

(** [Pin(esp_pin, esp)] (lines 55-60).  The state is the driver the
    pin is made with. *)
Definition __init__ (esp_pin : pyval) : M ESP_SPIcontrol t :=
  if in_pins esp_pin then
    ret (mk esp_pin IN (PyInt LOW))
  else
    match format_d esp_pin with
    | Some d =>
        raise (AttributeError
                 ("Pin " ++ d ++ " is not a valid ESP32 GPIO Pin.")%string)
    | None =>
        raise (TypeError
                 ("%d format: a number is required, not "
                    ++ type_name esp_pin)%string)
    end.

(** [init(self, mode=IN)] (lines 62-74) *)
Definition init (mode : pyval) : M (world t) unit :=
  if ne_None mode then
    if eq_int mode IN then
      set_self (fun p => mk (id p) IN (_value p)) ;;
      w <- get ;;
      send (set_pin_mode (id (self w)) 0)
    else if eq_int mode OUT then
      set_self (fun p => mk (id p) OUT (_value p)) ;;
      w <- get ;;
      send (set_pin_mode (id (self w)) 1)
    else
      raise (RuntimeError "Invalid mode defined")
  else
    ret tt.

(** [value(self, val=None)] (lines 76-90) *)
Definition value (val : pyval) : M (world t) unit :=
  if ne_None val then
    if eq_int val LOW then
      set_self (fun p => mk (id p) (_mode p) val) ;;
      w <- get ;;
      send (set_digital_write (id (self w)) 0)
    else if eq_int val HIGH then
      set_self (fun p => mk (id p) (_mode p) val) ;;
      w <- get ;;
      send (set_digital_write (id (self w)) 1)
    else
      raise (RuntimeError "Invalid value for pin")
  else
    raise (NotImplementedError
             "digitalRead not currently implemented in esp32spi").

(** [__repr__(self)] (lines 92-93) *)
Definition __repr__ (p : t) : option string :=
  str_ (id p).

End Pin.

(* ================================================================== *)
(** ** class DigitalInOut (lines 110-198) *)

Module DigitalInOut.

(** Instance attributes.  [_pin] is [None] at class level and again
    after [deinit].  Inside the class body [self.__direction] and
    [self.__drive_mode] are the private attributes
    [_DigitalInOut__direction] and [_DigitalInOut__drive_mode], absent
    until first stored; [_drive_mode] is a different, plain attribute. *)
Record t := mk {
  _pin : option Pin.t;
  __direction : option pyval;
  __drive_mode : option pyval;
  _drive_mode : option pyval
}.

(** The object as [__init__] receives it. *)
Definition blank : t := mk None None None None.

Definition set_pin (p : option Pin.t) (d : t) : t :=
  mk p (__direction d) (__drive_mode d) (_drive_mode d).

(** [self._pin.<attr>]: the lookup fails on [None]. *)
Definition pin_attr (attr : string) : M (world t) Pin.t :=
  w <- get ;;
  match _pin (self w) with
  | Some p => ret p
  | None => raise (MissingAttribute "NoneType" attr)
  end.

(** Run a [Pin] method on the owned pin, with the shared driver. *)
Definition call (p : Pin.t) {A} (m : M (world Pin.t) A) : M (world t) A :=
  fun w =>
    let (r, pw) := m (World p (esp w)) in
    (r, World (set_pin (Some (self pw)) (self w)) (esp pw)).

(** [self._pin.init(mode=<arg>)]: the bound method is looked up, then
    the argument is evaluated, then the call is made. *)
Definition pin_init (arg : M (world t) pyval) : M (world t) unit :=
  p <- pin_attr "init" ;;
  mode <- arg ;;
  call p (Pin.init mode).

(** [self._pin.value(<val>)] *)
Definition pin_value (val : pyval) : M (world t) unit :=
  p <- pin_attr "value" ;;
  call p (Pin.value val).

(** [deinit] (lines 125-126) *)
Definition deinit : M (world t) unit :=
  set_self (set_pin None).

(** [__exit__(self)] (lines 122-123) *)
Definition __exit__ : M (world t) unit :=
  deinit.

(** [direction] getter (lines 143-146) *)
Definition direction : M (world t) pyval :=
  w <- get ;;
  match __direction (self w) with
  | Some d => ret d
  | None => raise (MissingAttribute "DigitalInOut" "_DigitalInOut__direction")
  end.

(** [value] getter (lines 163-166).  [Pin.value] has no [return], so a
    call that came back would give [None], and [None is 1] is false. *)
Definition value : M (world t) pyval :=
  pin_value PyNone ;;
  ret (PyBool false).

(** [value] setter (lines 168-178) *)
Definition value_setter (val : pyval) : M (world t) unit :=
  d <- direction ;;
  if is_Direction d OUTPUT then
    pin_value (PyInt (if truthy val then 1 else 0))
  else
    raise (AttributeError "Not an output").

(** [drive_mode] getter (lines 180-186) *)
Definition drive_mode : M (world t) pyval :=
  d <- direction ;;
  if is_Direction d OUTPUT then
    w <- get ;;
    match __drive_mode (self w) with
    | Some m => ret m
    | None =>
        raise (MissingAttribute "DigitalInOut" "_DigitalInOut__drive_mode")
    end
  else
    raise (AttributeError "Not an output").

(** [drive_mode] setter (lines 188-198) *)
Definition drive_mode_setter (mode : pyval) : M (world t) unit :=
  set_self (fun d => mk (_pin d) (__direction d) (Some mode) (_drive_mode d)) ;;
  if is_DriveMode mode OPEN_DRAIN then
    pin_init (Pin.getattr "OPEN_DRAIN")
  else if is_DriveMode mode PUSH_PULL then
    pin_init (Pin.getattr "OUT")
  else
    ret tt.

(** [direction] setter (lines 148-161) *)
Definition direction_setter (dir : pyval) : M (world t) unit :=
  set_self (fun d => mk (_pin d) (Some dir) (__drive_mode d) (_drive_mode d)) ;;
  if is_Direction dir OUTPUT then
    pin_init (Pin.getattr "OUT") ;;
    value_setter (PyBool false) ;;
    drive_mode_setter (PyDriveMode PUSH_PULL)
  else if is_Direction dir INPUT then
    pin_init (Pin.getattr "IN")
  else
    raise (AttributeError "Not a Direction").

(** [switch_to_output(self, value=False, drive_mode=DriveMode.PUSH_PULL)]
    (lines 128-135).  The last statement stores the plain attribute
    [_drive_mode]; it does not go through the [drive_mode] setter. *)
Definition switch_to_output (val mode : pyval) : M (world t) unit :=
  direction_setter (PyDirection OUTPUT) ;;
  value_setter val ;;
  set_self (fun d => mk (_pin d) (__direction d) (__drive_mode d) (Some mode)).

(** [switch_to_input(self, pull=None)] (lines 137-141) *)
Definition switch_to_input (pull : pyval) : M (world t) unit :=
  raise (NotImplementedError
           "Digital reads are not currently supported in ESP32SPI.").

(** [__init__(self, esp, pin)] (lines 117-120), run on the blank
    object and the driver [esp]. *)
Definition __init__ (pin : pyval) : M (world t) unit :=
  p <- (fun w =>
          let (r, e) := Pin.__init__ pin (esp w) in (r, World (self w) e)) ;;
  set_self (set_pin (Some p)) ;;
  direction_setter (PyDirection INPUT).

(** [DigitalInOut(esp, pin)] *)
Definition new (esp : ESP_SPIcontrol) (pin : pyval) : outcome unit * world t :=
  __init__ pin (World blank esp).

(** *** The [with] statement

    The special methods the class body defines, each with its number
    of positional parameters ([self] included). *)
Definition special_methods : list (string * nat) :=
  [("__init__", 3%nat); ("__exit__", 1%nat)].

Fixpoint arity (name : string) (l : list (string * nat)) : option nat :=
  match l with
  | [] => None
  | (k, n) :: l' => if String.eqb k name then Some n else arity name l'
  end.

(** [with <the object>: body].  Python looks up [__enter__] and
    [__exit__] on the class before anything runs, calls
    [__enter__(self)], runs the body, and then, whether the body
    returned or raised, calls [__exit__(self, type, value, traceback)].
    The class gives [__exit__] one body only, so that is what a
    well-formed call runs. *)
Definition with_ {A} (body : M (world t) A) : M (world t) A :=
  match arity "__enter__" special_methods, arity "__exit__" special_methods with
  | None, _ => raise (MissingAttribute "DigitalInOut" "__enter__")
  | Some _, None => raise (MissingAttribute "DigitalInOut" "__exit__")
  | Some n_enter, Some n_exit =>
      if negb (Nat.eqb n_enter 1) then
        raise (TypeError "__enter__() called with 1 positional argument")
      else
        fun w =>
          let (r, w') := body w in
          if Nat.eqb n_exit 4 then
            let (r', w'') := __exit__ w' in
            match r' with
            | Return _ => (r, w'')
            | Raise e => (Raise e, w'')
            end
          else
            (Raise (TypeError "__exit__() called with 4 positional arguments"),
             w')
  end.

(** *** The public operations as data, to quantify over them *)
Inductive op :=
| Get_direction
| Set_direction (dir : pyval)
| Get_value
| Set_value (val : pyval)
| Get_drive_mode
| Set_drive_mode (mode : pyval)
| Switch_to_output (val mode : pyval)
| Switch_to_input (pull : pyval)
| Deinit.

(** Run an operation; a getter's value is kept, a call returns [None]. *)
Definition run (o : op) : M (world t) pyval :=
  match o with
  | Get_direction => direction
  | Set_direction dir => direction_setter dir ;; ret PyNone
  | Get_value => value
  | Set_value val => value_setter val ;; ret PyNone
  | Get_drive_mode => drive_mode
  | Set_drive_mode mode => drive_mode_setter mode ;; ret PyNone
  | Switch_to_output val mode => switch_to_output val mode ;; ret PyNone
  | Switch_to_input pull => switch_to_input pull ;; ret PyNone
  | Deinit => deinit ;; ret PyNone
  end.

(** A caller's script: the operations are run one after the other on
    the same object; an exception ends the operation that raised it and
    the script goes on with the next one. *)
Fixpoint exec (os : list op) (w : world t) : world t :=
  match os with
  | [] => w
  | o :: os' => exec os' (state_after (run o w))
  end.

End DigitalInOut.

(** A pin has been released when the object no longer holds one. *)
Definition released (w : world DigitalInOut.t) : bool :=
  match DigitalInOut._pin (self w) with
  | None => true
  | Some _ => false
  end.

(** The commands a call issued: what the driver log gained. *)
Definition issued {O A} (w : world O) (r : outcome A * world O)
    (cs : list command) : Prop :=
  esp (state_after r) = esp w ++ cs.

(** The call failed with the error the specification names [k]. *)
Definition fails_with {S A} (r : outcome A * S) (k : SpecError) : Prop :=
  exists e, result r = Raise e /\ spec_error e = Some k.

(** The object used in the scenarios: [DigitalInOut(esp, 5)] on a driver
    that has received nothing yet. *)
Definition dio5 : world DigitalInOut.t :=
  state_after (DigitalInOut.new [] (PyInt 5)).

(** The part of the state an operation may have changed when it fails on
    a live object: a direction assignment has stored its argument; the
    other operations have changed nothing.  A failing drive-mode
    assignment is left open. *)
Definition unchanged_by_failure (o : DigitalInOut.op)
    (w w' : world DigitalInOut.t) : Prop :=
  match o with
  | DigitalInOut.Set_direction dir =>
      w' = World (DigitalInOut.mk (DigitalInOut._pin (self w)) (Some dir)
                    (DigitalInOut.__drive_mode (self w))
                    (DigitalInOut._drive_mode (self w)))
                 (esp w)
  | DigitalInOut.Set_drive_mode _ => True
  | _ => w' = w
  end.

(** The mode of the last [set_pin_mode] in a run of commands, and the
    level of the last [set_digital_write]. *)
Definition last_mode (cs : list command) : option Z :=
  fold_left (fun acc c =>
               match c with
               | set_pin_mode _ m => Some m
               | set_digital_write _ _ => acc
               end) cs None.

Definition last_write (cs : list command) : option Z :=
  fold_left (fun acc c =>
               match c with
               | set_digital_write _ l => Some l
               | set_pin_mode _ _ => acc
               end) cs None.

(** A command that names pin [i] and carries the code 0 or 1. *)
Definition about (i : pyval) (c : command) : Prop :=
  match c with
  | set_pin_mode j m => j = i /\ (m = 0 \/ m = 1)
  | set_digital_write j l => j = i /\ (l = 0 \/ l = 1)
  end.

(** What holds of a [DigitalInOut] made for pin [i] on a driver whose log
    was [driver], whatever has been done with it since: [cs] are the
    commands it has issued. *)
Definition consistent (i : pyval) (driver : ESP_SPIcontrol)
    (cs : list command) (w : world DigitalInOut.t) : Prop :=
  esp w = driver ++ cs
  /\ Forall (about i) cs
  /\ (exists d, DigitalInOut.__direction (self w) = Some d)
  /\ (forall p, DigitalInOut._pin (self w) = Some p ->
        Pin.id p = i
        /\ last_mode cs = Some (Pin._mode p)
        /\ Pin._value p = PyInt (match last_write cs with
                                  | Some l => l
                                  | None => Pin.LOW
                                  end)
        /\ (DigitalInOut.__direction (self w) = Some (PyDirection OUTPUT) ->
            exists m, DigitalInOut.__drive_mode (self w) = Some m)).

(** A script used as an example: it mixes calls that return with calls
    that raise. *)
Definition blink : list DigitalInOut.op :=
  [DigitalInOut.Set_direction (PyDirection OUTPUT);
   DigitalInOut.Set_value (PyBool true);
   DigitalInOut.Set_direction PyNone;
   DigitalInOut.Set_drive_mode (PyDriveMode OPEN_DRAIN);
   DigitalInOut.Switch_to_output (PyInt 0) (PyDriveMode OPEN_DRAIN);
   DigitalInOut.Set_value (PyStr "high")].

(* ================================================================== *)
(** * Properties *)

(** ** Equations of the methods on a live object *)

Section Live.

Variables (p : Pin.t) (dir dm dm' : option pyval) (e : ESP_SPIcontrol).

Let w : world DigitalInOut.t := World (DigitalInOut.mk (Some p) dir dm dm') e.

Lemma pin_init_OUT :
  DigitalInOut.pin_init (Pin.getattr "OUT") w =
  (Return tt,
   World (DigitalInOut.mk (Some (Pin.mk (Pin.id p) Pin.OUT (Pin._value p))) dir dm dm')
         (e ++ [set_pin_mode (Pin.id p) 1])).
Proof. reflexivity. Qed.

Lemma pin_init_IN :
  DigitalInOut.pin_init (Pin.getattr "IN") w =
  (Return tt,
   World (DigitalInOut.mk (Some (Pin.mk (Pin.id p) Pin.IN (Pin._value p))) dir dm dm')
         (e ++ [set_pin_mode (Pin.id p) 0])).
Proof. reflexivity. Qed.

Lemma pin_init_OPEN_DRAIN :
  DigitalInOut.pin_init (Pin.getattr "OPEN_DRAIN") w =
  (Raise (MissingAttribute "Pin" "OPEN_DRAIN"), w).
Proof. reflexivity. Qed.

Lemma pin_value_level (b : bool) :
  DigitalInOut.pin_value (PyInt (if b then 1 else 0)) w =
  (Return tt,
   World (DigitalInOut.mk
            (Some (Pin.mk (Pin.id p) (Pin._mode p) (PyInt (if b then 1 else 0))))
            dir dm dm')
         (e ++ [set_digital_write (Pin.id p) (if b then 1 else 0)])).
Proof. destruct b; reflexivity. Qed.

Lemma pin_value_None :
  DigitalInOut.pin_value PyNone w =
  (Raise (NotImplementedError
            "digitalRead not currently implemented in esp32spi"), w).
Proof. destruct p; reflexivity. Qed.

End Live.

(** Every world with a live pin has the shape the equations above take. *)
Lemma live_shape (w : world DigitalInOut.t) (p : Pin.t) :
  DigitalInOut._pin (self w) = Some p ->
  w = World (DigitalInOut.mk (Some p)
               (DigitalInOut.__direction (self w))
               (DigitalInOut.__drive_mode (self w))
               (DigitalInOut._drive_mode (self w)))
            (esp w).
Proof.
  destruct w as [[pin dir dm dm'] e]; simpl; intros ->; reflexivity.
Qed.

Lemma is_Direction_true (v : pyval) (d : Direction) :
  is_Direction v d = true -> v = PyDirection d.
Proof.
  destruct v as [| | | |d'| |]; simpl; try discriminate.
  destruct d', d; simpl; congruence.
Qed.

Lemma is_DriveMode_true (v : pyval) (m : DriveMode) :
  is_DriveMode v m = true -> v = PyDriveMode m.
Proof.
  destruct v as [| | | | |m'|]; simpl; try discriminate.
  destruct m', m; simpl; congruence.
Qed.

(** The value setter on a live output pin, for any object assigned. *)
Lemma value_setter_OUTPUT (p : Pin.t) (dm dm' : option pyval)
    (e : ESP_SPIcontrol) (val : pyval) :
  DigitalInOut.value_setter val
    (World (DigitalInOut.mk (Some p) (Some (PyDirection OUTPUT)) dm dm') e) =
  (Return tt,
   World (DigitalInOut.mk
            (Some (Pin.mk (Pin.id p) (Pin._mode p)
                     (PyInt (if truthy val then 1 else 0))))
            (Some (PyDirection OUTPUT)) dm dm')
         (e ++ [set_digital_write (Pin.id p) (if truthy val then 1 else 0)])).
Proof.
  unfold DigitalInOut.value_setter, DigitalInOut.direction, bind, get; simpl.
  apply pin_value_level.
Qed.

(** The value getter on a live object: [Pin.value()] raises. *)
Lemma value_getter_live (p : Pin.t) (dir dm dm' : option pyval)
    (e : ESP_SPIcontrol) :
  let w := World (DigitalInOut.mk (Some p) dir dm dm') e in
  DigitalInOut.value w =
  (Raise (NotImplementedError
            "digitalRead not currently implemented in esp32spi"), w).
Proof.
  intros w. subst w. unfold DigitalInOut.value, bind.
  rewrite pin_value_None. reflexivity.
Qed.

(** Assigning [Direction.OUTPUT] on a live object, in full. *)
Lemma direction_setter_OUTPUT (p : Pin.t) (dir dm dm' : option pyval)
    (e : ESP_SPIcontrol) :
  DigitalInOut.direction_setter (PyDirection OUTPUT)
    (World (DigitalInOut.mk (Some p) dir dm dm') e) =
  (Return tt,
   World (DigitalInOut.mk
            (Some (Pin.mk (Pin.id p) Pin.OUT (PyInt 0)))
            (Some (PyDirection OUTPUT))
            (Some (PyDriveMode PUSH_PULL)) dm')
         (e ++ [set_pin_mode (Pin.id p) 1;
                set_digital_write (Pin.id p) 0;
                set_pin_mode (Pin.id p) 1])).
Proof.
  cbn. rewrite <- !app_assoc. reflexivity.
Qed.

(* ------------------------------------------------------------------ *)
(** ** Pin construction *)

Lemma in_pins_In (z : Z) :
  Pin.in_pins (PyInt z) = true <-> In z Pin.ESP32_GPIO_PINS.
Proof.
  unfold Pin.in_pins; simpl as_int. rewrite existsb_exists. split.
  - intros [x [Hx Hz]]. apply Z.eqb_eq in Hz. subst x. exact Hx.
  - intros H. exists z. split; [exact H | apply Z.eqb_refl].
Qed.

(** C5: constructing [Pin(identifier, driver)] with an integer identifier
    outside [ESP32_GPIO_PINS] raises the invalid-pin [AttributeError] and
    sends the driver nothing; with an identifier in the set it returns a
    pin whose [id] is that identifier, again sending nothing. *)
Theorem Pin_init_validates_identifier (z : Z) (driver : ESP_SPIcontrol) :
  (~ In z Pin.ESP32_GPIO_PINS ->
   Pin.__init__ (PyInt z) driver =
     (Raise (AttributeError
               ("Pin " ++ NilZero.string_of_int (Z.to_int z)
                  ++ " is not a valid ESP32 GPIO Pin.")%string), driver)
   /\ fails_with (Pin.__init__ (PyInt z) driver) InvalidPinError)
  /\
  (In z Pin.ESP32_GPIO_PINS ->
   exists p, Pin.__init__ (PyInt z) driver = (Return p, driver)
             /\ Pin.id p = PyInt z).
Proof.
  split; intros H.
  - assert (Hn : Pin.in_pins (PyInt z) = false).
    { destruct (Pin.in_pins (PyInt z)) eqn:E; [|reflexivity].
      apply in_pins_In in E. contradiction. }
    unfold fails_with, Pin.__init__. rewrite Hn. simpl. split; [reflexivity|].
    eexists. split; reflexivity.
  - apply in_pins_In in H. unfold Pin.__init__. rewrite H.
    eexists. split; reflexivity.
Qed.

Lemma Pin_init_validates_identifier_witness :
  fails_with (Pin.__init__ (PyInt 99) []) InvalidPinError
  /\ exists p, Pin.__init__ (PyInt 5) [] = (Return p, []) /\ Pin.id p = PyInt 5.
Proof.
  split.
  - destruct (Pin_init_validates_identifier 99 []) as [Hout _].
    apply Hout. simpl. intros H.
    repeat (destruct H as [H|H]; [discriminate H|]). exact H.
  - destruct (Pin_init_validates_identifier 5 []) as [_ Hin].
    apply Hin. simpl. tauto.
Defined.

(* ------------------------------------------------------------------ *)
(** ** Direction, value and drive mode on a live object *)

(** C6: on an object that still holds its pin, assigning
    [Direction.OUTPUT] returns normally; afterwards the [drive_mode]
    property reads [PUSH_PULL], the pin's stored level is LOW (0) and its
    mode is OUT, and the driver was sent [set_pin_mode(id, 1)] (followed by
    the digital write of 0 and the push-pull re-initialisation). *)
Theorem direction_OUTPUT_resets_value_and_drive_mode
    (w : world DigitalInOut.t) (p : Pin.t) :
  DigitalInOut._pin (self w) = Some p ->
  let r := DigitalInOut.direction_setter (PyDirection OUTPUT) w in
  result r = Return tt
  /\ result (DigitalInOut.direction (state_after r)) = Return (PyDirection OUTPUT)
  /\ result (DigitalInOut.drive_mode (state_after r))
     = Return (PyDriveMode PUSH_PULL)
  /\ DigitalInOut._pin (self (state_after r))
     = Some (Pin.mk (Pin.id p) Pin.OUT (PyInt Pin.LOW))
  /\ In (set_pin_mode (Pin.id p) 1) (esp (state_after r))
  /\ issued w r [set_pin_mode (Pin.id p) 1;
                 set_digital_write (Pin.id p) 0;
                 set_pin_mode (Pin.id p) 1].
Proof.
  intros Hp r. subst r. rewrite (live_shape w p Hp).
  rewrite direction_setter_OUTPUT. unfold issued, result, state_after. simpl.
  repeat split. apply in_or_app. right. left. reflexivity.
Qed.

Lemma direction_OUTPUT_resets_value_and_drive_mode_witness :
  let r := DigitalInOut.direction_setter (PyDirection OUTPUT) dio5 in
  result (DigitalInOut.drive_mode (state_after r)) = Return (PyDriveMode PUSH_PULL)
  /\ esp (state_after r)
     = [set_pin_mode (PyInt 5) 0; set_pin_mode (PyInt 5) 1;
        set_digital_write (PyInt 5) 0; set_pin_mode (PyInt 5) 1].
Proof.
  destruct (direction_OUTPUT_resets_value_and_drive_mode
              dio5 (Pin.mk (PyInt 5) 0 (PyInt 0)) eq_refl)
    as (_ & _ & Hdm & _ & _ & Hlog).
  split; [exact Hdm | exact Hlog].
Defined.

(** C7: on an object that still holds its pin, whatever its direction
    (INPUT, OUTPUT, or anything else stored), reading [value] raises the
    [NotImplementedError] of [Pin.value] called without an argument, and
    changes nothing. *)
Theorem value_getter_unsupported (w : world DigitalInOut.t) (p : Pin.t) :
  DigitalInOut._pin (self w) = Some p ->
  DigitalInOut.value w =
    (Raise (NotImplementedError
              "digitalRead not currently implemented in esp32spi"), w)
  /\ Pin.value PyNone (World p (esp w)) =
       (Raise (NotImplementedError
                 "digitalRead not currently implemented in esp32spi"),
        World p (esp w))
  /\ fails_with (DigitalInOut.value w) UnsupportedOperationError.
Proof.
  intros Hp.
  assert (E : DigitalInOut.value w =
    (Raise (NotImplementedError
              "digitalRead not currently implemented in esp32spi"), w)).
  { rewrite (live_shape w p Hp) at 1 2. apply value_getter_live. }
  split; [exact E|]. split; [reflexivity|].
  unfold fails_with. rewrite E. eexists. split; reflexivity.
Qed.

Lemma value_getter_unsupported_witness :
  fails_with (DigitalInOut.value dio5) UnsupportedOperationError
  /\ fails_with
       (DigitalInOut.value
          (state_after (DigitalInOut.direction_setter (PyDirection OUTPUT) dio5)))
       UnsupportedOperationError.
Proof.
  split.
  - apply (value_getter_unsupported dio5 (Pin.mk (PyInt 5) 0 (PyInt 0)) eq_refl).
  - apply (value_getter_unsupported
             (state_after (DigitalInOut.direction_setter (PyDirection OUTPUT) dio5))
             (Pin.mk (PyInt 5) 1 (PyInt 0)) eq_refl).
Defined.

(** C8: on an object that holds its pin and whose direction is OUTPUT,
    assigning [True] to [value] sends exactly one command,
    [set_digital_write(id, 1)], and assigning [False] exactly one,
    [set_digital_write(id, 0)]; on any object whose stored direction is
    not OUTPUT, every assignment to [value] raises
    [AttributeError("Not an output")] and sends nothing. *)
Theorem value_setter_writes_level_or_rejects
    (w : world DigitalInOut.t) (d : pyval) :
  DigitalInOut.__direction (self w) = Some d ->
  (forall p, d = PyDirection OUTPUT -> DigitalInOut._pin (self w) = Some p ->
     (let r := DigitalInOut.value_setter (PyBool true) w in
      result r = Return tt /\ issued w r [set_digital_write (Pin.id p) Pin.HIGH])
     /\
     (let r := DigitalInOut.value_setter (PyBool false) w in
      result r = Return tt /\ issued w r [set_digital_write (Pin.id p) Pin.LOW]))
  /\
  (d <> PyDirection OUTPUT ->
   forall val,
     DigitalInOut.value_setter val w = (Raise (AttributeError "Not an output"), w)
     /\ fails_with (DigitalInOut.value_setter val w) NotAnOutputError
     /\ issued w (DigitalInOut.value_setter val w) []).
Proof.
  intros Hd. split.
  - intros p -> Hp. rewrite (live_shape w p Hp), Hd.
    rewrite !value_setter_OUTPUT. unfold issued, result, state_after.
    simpl. repeat split.
  - intros Hne val.
    assert (Hd' : is_Direction d OUTPUT = false).
    { destruct (is_Direction d OUTPUT) eqn:E; [|reflexivity].
      apply is_Direction_true in E. contradiction. }
    assert (E : DigitalInOut.value_setter val w
                = (Raise (AttributeError "Not an output"), w)).
    { unfold DigitalInOut.value_setter, DigitalInOut.direction, bind, get.
      rewrite Hd. unfold ret. rewrite Hd'. reflexivity. }
    rewrite E. unfold fails_with, issued, result, state_after. simpl.
    repeat split.
    + eexists. split; reflexivity.
    + symmetry. apply app_nil_r.
Qed.

Lemma value_setter_writes_level_or_rejects_witness :
  (let w := state_after (DigitalInOut.direction_setter (PyDirection OUTPUT) dio5) in
   issued w (DigitalInOut.value_setter (PyBool true) w)
     [set_digital_write (PyInt 5) 1])
  /\ fails_with (DigitalInOut.value_setter (PyBool true) dio5) NotAnOutputError.
Proof.
  split.
  - intros w.
    destruct (value_setter_writes_level_or_rejects w (PyDirection OUTPUT) eq_refl)
      as [Hout _].
    destruct (Hout (Pin.mk (PyInt 5) 1 (PyInt 0)) eq_refl eq_refl)
      as [[_ Hhigh] _].
    exact Hhigh.
  - destruct (value_setter_writes_level_or_rejects dio5 (PyDirection INPUT) eq_refl)
      as [_ Hin].
    destruct (Hin ltac:(discriminate) (PyBool true)) as (_ & Hfail & _).
    exact Hfail.
Defined.

(** C10: on an object that holds its pin and whose direction is OUTPUT,
    the [value] setter accepts any object: it returns normally, a truthy
    object is forwarded as exactly one [set_digital_write(id, 1)] and a
    falsy one as exactly one [set_digital_write(id, 0)]; in particular
    the invalid-value [RuntimeError] of [Pin.value] is never raised. *)
Theorem value_setter_accepts_any_object
    (w : world DigitalInOut.t) (p : Pin.t) (val : pyval) :
  DigitalInOut.__direction (self w) = Some (PyDirection OUTPUT) ->
  DigitalInOut._pin (self w) = Some p ->
  let r := DigitalInOut.value_setter val w in
  result r = Return tt
  /\ ~ fails_with r InvalidValueError
  /\ (truthy val = true -> issued w r [set_digital_write (Pin.id p) Pin.HIGH])
  /\ (truthy val = false -> issued w r [set_digital_write (Pin.id p) Pin.LOW]).
Proof.
  intros Hd Hp r. subst r. rewrite (live_shape w p Hp), Hd.
  rewrite value_setter_OUTPUT. unfold fails_with, issued, result, state_after.
  simpl. repeat split.
  - intros [x [Hx _]]. discriminate Hx.
  - intros ->. reflexivity.
  - intros ->. reflexivity.
Qed.

Lemma value_setter_accepts_any_object_witness :
  let w := state_after (DigitalInOut.direction_setter (PyDirection OUTPUT) dio5) in
  issued w (DigitalInOut.value_setter (PyStr "on") w)
    [set_digital_write (PyInt 5) 1]
  /\ issued w (DigitalInOut.value_setter PyNone w)
       [set_digital_write (PyInt 5) 0]
  /\ issued w (DigitalInOut.value_setter (PyInt 7) w)
       [set_digital_write (PyInt 5) 1].
Proof.
  intros w.
  pose (p := Pin.mk (PyInt 5) 1 (PyInt 0)).
  destruct (value_setter_accepts_any_object w p (PyStr "on") eq_refl eq_refl)
    as (_ & _ & Hon & _).
  destruct (value_setter_accepts_any_object w p PyNone eq_refl eq_refl)
    as (_ & _ & _ & Hnone).
  destruct (value_setter_accepts_any_object w p (PyInt 7) eq_refl eq_refl)
    as (_ & _ & Hseven & _).
  split; [exact (Hon eq_refl) | split; [exact (Hnone eq_refl) | exact (Hseven eq_refl)]].
Defined.

(* ------------------------------------------------------------------ *)
(** ** The drive mode: setter and [switch_to_output] *)

(** The [drive_mode] setter on a live object: [PUSH_PULL] stores the
    mode and re-initialises the pin as OUT. *)
Lemma drive_mode_setter_PUSH_PULL (p : Pin.t) (dir dm dm' : option pyval)
    (e : ESP_SPIcontrol) :
  DigitalInOut.drive_mode_setter (PyDriveMode PUSH_PULL)
    (World (DigitalInOut.mk (Some p) dir dm dm') e) =
  (Return tt,
   World (DigitalInOut.mk (Some (Pin.mk (Pin.id p) Pin.OUT (Pin._value p)))
            dir (Some (PyDriveMode PUSH_PULL)) dm')
         (e ++ [set_pin_mode (Pin.id p) 1])).
Proof. reflexivity. Qed.

(** ... and [OPEN_DRAIN] stores the mode, then fails on [Pin.OPEN_DRAIN]. *)
Lemma drive_mode_setter_OPEN_DRAIN (p : Pin.t) (dir dm dm' : option pyval)
    (e : ESP_SPIcontrol) :
  DigitalInOut.drive_mode_setter (PyDriveMode OPEN_DRAIN)
    (World (DigitalInOut.mk (Some p) dir dm dm') e) =
  (Raise (MissingAttribute "Pin" "OPEN_DRAIN"),
   World (DigitalInOut.mk (Some p) dir (Some (PyDriveMode OPEN_DRAIN)) dm') e).
Proof. reflexivity. Qed.

(** [switch_to_output] on a live object, in full: the mode argument ends
    up in [_drive_mode] only. *)
Lemma switch_to_output_live (p : Pin.t) (dir dm dm' : option pyval)
    (e : ESP_SPIcontrol) (val mode : pyval) :
  DigitalInOut.switch_to_output val mode
    (World (DigitalInOut.mk (Some p) dir dm dm') e) =
  (Return tt,
   World (DigitalInOut.mk
            (Some (Pin.mk (Pin.id p) Pin.OUT (PyInt (if truthy val then 1 else 0))))
            (Some (PyDirection OUTPUT))
            (Some (PyDriveMode PUSH_PULL))
            (Some mode))
         (e ++ [set_pin_mode (Pin.id p) 1;
                set_digital_write (Pin.id p) 0;
                set_pin_mode (Pin.id p) 1;
                set_digital_write (Pin.id p) (if truthy val then 1 else 0)])).
Proof.
  unfold DigitalInOut.switch_to_output.
  unfold bind at 1. rewrite direction_setter_OUTPUT.
  unfold bind at 1. rewrite value_setter_OUTPUT.
  cbn. rewrite <- !app_assoc. reflexivity.
Qed.

(** C1: [DigitalInOut(esp, 5).switch_to_output(True, DriveMode.OPEN_DRAIN)]
    returns normally; the driver has then received, after the
    constructor's [set_pin_mode(5, 0)], the commands [set_pin_mode(5, 1)],
    [set_digital_write(5, 0)], [set_pin_mode(5, 1)],
    [set_digital_write(5, 1)] and no further set-mode command; the
    [drive_mode] property reads [PUSH_PULL], and [OPEN_DRAIN] sits in the
    unrelated attribute [_drive_mode]. *)
Theorem switch_to_output_true_open_drain :
  let r := DigitalInOut.switch_to_output
             (PyBool true) (PyDriveMode OPEN_DRAIN) dio5 in
  result r = Return tt
  /\ esp (state_after r)
     = [set_pin_mode (PyInt 5) 0;
        set_pin_mode (PyInt 5) 1; set_digital_write (PyInt 5) 0;
        set_pin_mode (PyInt 5) 1; set_digital_write (PyInt 5) 1]
  /\ result (DigitalInOut.drive_mode (state_after r))
     = Return (PyDriveMode PUSH_PULL)
  /\ DigitalInOut._drive_mode (self (state_after r))
     = Some (PyDriveMode OPEN_DRAIN).
Proof. repeat split. Qed.

(** C4: on a live object whose direction is OUTPUT, assigning
    [DriveMode.OPEN_DRAIN] to [drive_mode] stores it and then raises the
    [AttributeError] for the missing class attribute [Pin.OPEN_DRAIN]:
    the pin is not re-initialised and the driver is sent nothing.
    Assigning [DriveMode.PUSH_PULL] stores it, sets the pin's mode to OUT
    and sends [set_pin_mode(id, 1)]. *)
Theorem drive_mode_setter_on_output
    (p : Pin.t) (dm dm' : option pyval) (e : ESP_SPIcontrol) :
  let w := World (DigitalInOut.mk (Some p) (Some (PyDirection OUTPUT)) dm dm') e in
  (let r := DigitalInOut.drive_mode_setter (PyDriveMode OPEN_DRAIN) w in
   result r = Raise (MissingAttribute "Pin" "OPEN_DRAIN")
   /\ issued w r []
   /\ DigitalInOut._pin (self (state_after r)) = Some p
   /\ result (DigitalInOut.drive_mode (state_after r))
      = Return (PyDriveMode OPEN_DRAIN))
  /\
  (let r := DigitalInOut.drive_mode_setter (PyDriveMode PUSH_PULL) w in
   result r = Return tt
   /\ issued w r [set_pin_mode (Pin.id p) Pin.OUT]
   /\ DigitalInOut._pin (self (state_after r))
      = Some (Pin.mk (Pin.id p) Pin.OUT (Pin._value p))
   /\ result (DigitalInOut.drive_mode (state_after r))
      = Return (PyDriveMode PUSH_PULL)).
Proof.
  intros w. subst w.
  rewrite drive_mode_setter_OPEN_DRAIN, drive_mode_setter_PUSH_PULL.
  unfold issued, result, state_after. simpl. rewrite app_nil_r.
  repeat split.
Qed.

(* ------------------------------------------------------------------ *)
(** ** Scoped use *)

(** [__exit__()] called directly releases the pin, whatever the state. *)
Lemma exit_releases (w : world DigitalInOut.t) :
  result (DigitalInOut.__exit__ w) = Return tt
  /\ released (state_after (DigitalInOut.__exit__ w)) = true.
Proof. split; reflexivity. Qed.

(** C9: a [with] statement on a [DigitalInOut] raises the
    [AttributeError] for the missing [__enter__] before the block runs:
    the block has no effect, [deinit] is not called, and an object that
    held its pin still holds it. *)
Theorem with_statement_never_enters
    (A : Type) (body : M (world DigitalInOut.t) A) (w : world DigitalInOut.t) :
  DigitalInOut.with_ body w
    = (Raise (MissingAttribute "DigitalInOut" "__enter__"), w)
  /\ released (state_after (DigitalInOut.with_ body w)) = released w.
Proof. split; reflexivity. Qed.

(* ------------------------------------------------------------------ *)
(** ** After [deinit] *)

Lemma deinit_eq (w : world DigitalInOut.t) :
  DigitalInOut.deinit w =
  (Return tt,
   World (DigitalInOut.mk None
            (DigitalInOut.__direction (self w))
            (DigitalInOut.__drive_mode (self w))
            (DigitalInOut._drive_mode (self w)))
         (esp w)).
Proof. reflexivity. Qed.

Lemma fails_with_intro {S A} (r : outcome A * S) (e : exn) (k : SpecError) :
  result r = Raise e -> spec_error e = Some k -> fails_with r k.
Proof. intros H1 H2. exists e. split; assumption. Qed.

(** C2, as stated, fails: after [DigitalInOut(esp, 5).deinit()] the
    [direction] getter returns [Direction.INPUT] instead of raising. *)
Lemma direction_readable_after_deinit :
  let w := state_after (DigitalInOut.deinit dio5) in
  released w = true
  /\ DigitalInOut.direction w = (Return (PyDirection INPUT), w)
  /\ ~ fails_with (DigitalInOut.direction w) UseAfterDeinitError.
Proof.
  repeat split. intros [x [Hx _]]. discriminate Hx.
Qed.

(** C2, amended: after [deinit()] every operation that reaches the
    released pin raises the [AttributeError] of an attribute lookup on
    [None] and sends the driver nothing: assigning [Direction.INPUT] or
    [Direction.OUTPUT], reading [value], assigning [value] while the
    stored direction is OUTPUT, assigning [DriveMode.PUSH_PULL] or
    [DriveMode.OPEN_DRAIN], and [switch_to_output].  The [direction] and
    [drive_mode] getters do not look at the pin and answer as they did
    before the release.  Calling [deinit()] again returns normally and
    changes nothing. *)
Theorem released_object_operations (w : world DigitalInOut.t) :
  let w' := state_after (DigitalInOut.deinit w) in
  released w' = true
  /\ DigitalInOut.deinit w' = (Return tt, w')
  /\ DigitalInOut.direction w' = (result (DigitalInOut.direction w), w')
  /\ DigitalInOut.drive_mode w' = (result (DigitalInOut.drive_mode w), w')
  /\ (forall d : Direction,
        let r := DigitalInOut.direction_setter (PyDirection d) w' in
        fails_with r UseAfterDeinitError /\ issued w' r [])
  /\ (let r := DigitalInOut.value w' in
      fails_with r UseAfterDeinitError /\ issued w' r [])
  /\ (forall val,
        DigitalInOut.__direction (self w) = Some (PyDirection OUTPUT) ->
        let r := DigitalInOut.value_setter val w' in
        fails_with r UseAfterDeinitError /\ issued w' r [])
  /\ (forall m : DriveMode,
        let r := DigitalInOut.drive_mode_setter (PyDriveMode m) w' in
        fails_with r UseAfterDeinitError /\ issued w' r [])
  /\ (forall val mode,
        let r := DigitalInOut.switch_to_output val mode w' in
        fails_with r UseAfterDeinitError /\ issued w' r []).
Proof.
  intros w'. subst w'. rewrite deinit_eq.
  destruct w as [[pin dir dm dm'] e]. unfold state_after, issued. simpl.
  split; [reflexivity|]. split; [reflexivity|].
  split; [destruct dir; reflexivity|].
  split.
  { unfold DigitalInOut.drive_mode, DigitalInOut.direction, bind, get. simpl.
    destruct dir as [d|]; simpl; [|reflexivity].
    destruct (is_Direction d OUTPUT); simpl; [|reflexivity].
    destruct dm; reflexivity. }
  split.
  { intros d. split.
    - destruct d;
        (eapply fails_with_intro; [reflexivity | reflexivity]).
    - destruct d; simpl; symmetry; apply app_nil_r. }
  split.
  { split.
    - eapply fails_with_intro; reflexivity.
    - simpl. symmetry; apply app_nil_r. }
  split.
  { intros val ->. split.
    - eapply fails_with_intro; reflexivity.
    - simpl. symmetry; apply app_nil_r. }
  split.
  { intros m. split.
    - destruct m; (eapply fails_with_intro; reflexivity).
    - destruct m; simpl; symmetry; apply app_nil_r. }
  intros val mode. split.
  - eapply fails_with_intro; reflexivity.
  - simpl. symmetry; apply app_nil_r.
Qed.

Lemma released_object_operations_witness :
  let w' := state_after
              (DigitalInOut.deinit
                 (state_after
                    (DigitalInOut.direction_setter (PyDirection OUTPUT) dio5))) in
  fails_with (DigitalInOut.value_setter (PyBool true) w') UseAfterDeinitError
  /\ DigitalInOut.deinit w' = (Return tt, w').
Proof.
  intros w'.
  destruct (released_object_operations
              (state_after
                 (DigitalInOut.direction_setter (PyDirection OUTPUT) dio5)))
    as (_ & Hagain & _ & _ & _ & _ & Hset & _).
  split; [exact (proj1 (Hset (PyBool true) eq_refl)) | exact Hagain].
Defined.

(* ------------------------------------------------------------------ *)
(** ** What a failing call leaves behind *)

(** On a live object a direction assignment fails only for an object
    that is neither [Direction.INPUT] nor [Direction.OUTPUT]. *)
Lemma direction_setter_live (p : Pin.t) (dir dm dm' : option pyval)
    (e : ESP_SPIcontrol) (v : pyval) :
  let w := World (DigitalInOut.mk (Some p) dir dm dm') e in
  raises (result (DigitalInOut.direction_setter v w)) = true ->
  DigitalInOut.direction_setter v w =
  (Raise (AttributeError "Not a Direction"),
   World (DigitalInOut.mk (Some p) (Some v) dm dm') e).
Proof.
  intros w H. subst w. revert H.
  destruct v as [| | | |[|]| |];
    try (intros _; reflexivity).
  - cbn. discriminate.
  - rewrite direction_setter_OUTPUT. cbn. discriminate.
Qed.

Lemma value_setter_live (p : Pin.t) (dir dm dm' : option pyval)
    (e : ESP_SPIcontrol) (val : pyval) :
  let w := World (DigitalInOut.mk (Some p) dir dm dm') e in
  raises (result (DigitalInOut.value_setter val w)) = true ->
  state_after (DigitalInOut.value_setter val w) = w.
Proof.
  intros w H. subst w. revert H.
  destruct dir as [d|]; [|intros _; reflexivity].
  destruct (is_Direction d OUTPUT) eqn:E.
  - apply is_Direction_true in E. subst d.
    rewrite value_setter_OUTPUT. cbn. discriminate.
  - intros _. unfold DigitalInOut.value_setter, DigitalInOut.direction, bind, get.
    simpl. unfold ret. rewrite E. reflexivity.
Qed.

Lemma drive_mode_getter_pure (w : world DigitalInOut.t) :
  state_after (DigitalInOut.drive_mode w) = w.
Proof.
  destruct w as [[pin dir dm dm'] e].
  unfold DigitalInOut.drive_mode, DigitalInOut.direction, bind, get. simpl.
  destruct dir as [d|]; simpl; [|reflexivity].
  destruct (is_Direction d OUTPUT); simpl; [|reflexivity].
  destruct dm; reflexivity.
Qed.

(** A call statement: the method's [None] is returned in place of [tt]. *)
Lemma then_ret {S A B} (m : M S A) (b : B) (s : S) :
  raises (result ((m ;; ret b) s)) = raises (result (m s))
  /\ state_after ((m ;; ret b) s) = state_after (m s).
Proof.
  unfold bind. destruct (m s) as [[a|x] s']; split; reflexivity.
Qed.

Lemma Pin_init_raises (mode : pyval) (pw : world Pin.t) :
  raises (result (Pin.init mode pw)) = true ->
  Pin.init mode pw = (Raise (RuntimeError "Invalid mode defined"), pw).
Proof.
  unfold Pin.init.
  destruct (ne_None mode); [|cbn; discriminate].
  destruct (eq_int mode Pin.IN); [cbn; discriminate|].
  destruct (eq_int mode Pin.OUT); [cbn; discriminate|].
  reflexivity.
Qed.

Lemma Pin_value_raises (val : pyval) (pw : world Pin.t) :
  raises (result (Pin.value val pw)) = true ->
  state_after (Pin.value val pw) = pw.
Proof.
  unfold Pin.value.
  destruct (ne_None val); [|reflexivity].
  destruct (eq_int val Pin.LOW); [cbn; discriminate|].
  destruct (eq_int val Pin.HIGH); [cbn; discriminate|].
  reflexivity.
Qed.

(** C3, as stated, fails: assigning [None] to [direction] on
    [DigitalInOut(esp, 5)] raises [AttributeError("Not a Direction")],
    yet the stored direction has changed from [Direction.INPUT] to
    [None]. *)
Lemma failed_direction_assignment_is_stored :
  let r := DigitalInOut.direction_setter PyNone dio5 in
  fails_with r InvalidDirectionError
  /\ result (DigitalInOut.direction dio5) = Return (PyDirection INPUT)
  /\ result (DigitalInOut.direction (state_after r)) = Return PyNone
  /\ state_after r <> dio5.
Proof.
  repeat split.
  - eapply fails_with_intro; reflexivity.
  - discriminate.
Qed.

(** C3, amended: a failing [Pin(...)], [Pin.init] or [Pin.value] call
    changes neither the pin nor the driver log, and a failing
    [DigitalInOut(...)] sends the driver nothing.  On a [DigitalInOut]
    that holds its pin, a failing [direction] read, [value] read or
    assignment, [drive_mode] read, [switch_to_output] or [switch_to_input]
    leaves the whole state, driver log included, as it was; a
    failing [direction] assignment has stored the rejected object as the
    direction and changed nothing else, and sent no command. *)
Theorem failing_call_effects :
  (forall v driver,
     raises (result (Pin.__init__ v driver)) = true ->
     state_after (Pin.__init__ v driver) = driver)
  /\ (forall mode pw,
        raises (result (Pin.init mode pw)) = true ->
        state_after (Pin.init mode pw) = pw)
  /\ (forall val pw,
        raises (result (Pin.value val pw)) = true ->
        state_after (Pin.value val pw) = pw)
  /\ (forall driver v,
        raises (result (DigitalInOut.new driver v)) = true ->
        esp (state_after (DigitalInOut.new driver v)) = driver)
  /\ (forall o w,
        released w = false ->
        raises (result (DigitalInOut.run o w)) = true ->
        unchanged_by_failure o w (state_after (DigitalInOut.run o w))).
Proof.
  split; [|split; [|split; [|split]]].
  - intros v driver _. unfold Pin.__init__.
    destruct (Pin.in_pins v); [reflexivity|].
    destruct (Pin.format_d v); reflexivity.
  - intros mode pw H. rewrite (Pin_init_raises mode pw H). reflexivity.
  - exact Pin_value_raises.
  - intros driver v. unfold DigitalInOut.new, DigitalInOut.__init__.
    unfold bind at 1. simpl. unfold Pin.__init__.
    destruct (Pin.in_pins v).
    + cbn. discriminate.
    + destruct (Pin.format_d v); reflexivity.
  - intros o [[[p|] dir dm dm'] e]; [|discriminate]. intros _.
    destruct o as [|v|  |val| |m|val m|pull|];
      unfold unchanged_by_failure, DigitalInOut.run.
    + destruct dir; reflexivity.
    + destruct (then_ret (DigitalInOut.direction_setter v) PyNone
                  (World (DigitalInOut.mk (Some p) dir dm dm') e)) as [-> ->].
      intros H. rewrite (direction_setter_live p dir dm dm' e v H). reflexivity.
    + intros _. rewrite (value_getter_live p dir dm dm' e). reflexivity.
    + destruct (then_ret (DigitalInOut.value_setter val) PyNone
                  (World (DigitalInOut.mk (Some p) dir dm dm') e)) as [-> ->].
      apply value_setter_live.
    + intros _. apply drive_mode_getter_pure.
    + intros _. exact I.
    + destruct (then_ret (DigitalInOut.switch_to_output val m) PyNone
                  (World (DigitalInOut.mk (Some p) dir dm dm') e)) as [-> ->].
      rewrite switch_to_output_live. cbn. discriminate.
    + intros _. reflexivity.
    + cbn. discriminate.
Qed.

Lemma failing_call_effects_witness :
  state_after (Pin.__init__ (PyInt 99) []) = []
  /\ state_after (Pin.init (PyInt 2) (World (Pin.mk (PyInt 5) 0 (PyInt 0)) []))
     = World (Pin.mk (PyInt 5) 0 (PyInt 0)) []
  /\ state_after (DigitalInOut.run (DigitalInOut.Set_value (PyBool true)) dio5)
     = dio5
  /\ esp (state_after (DigitalInOut.run (DigitalInOut.Set_direction PyNone) dio5))
     = esp dio5.
Proof.
  destruct failing_call_effects as (Hnew & Hinit & _ & _ & Hrun).
  split; [exact (Hnew (PyInt 99) [] eq_refl)|].
  split; [exact (Hinit (PyInt 2) _ eq_refl)|].
  split.
  - exact (Hrun (DigitalInOut.Set_value (PyBool true)) dio5 eq_refl eq_refl).
  - exact (f_equal esp
             (Hrun (DigitalInOut.Set_direction PyNone) dio5 eq_refl eq_refl)).
Defined.

(* ================================================================== *)
(** * Further properties of the module *)

(** ** Construction *)

Lemma not_in_pins (z : Z) :
  ~ In z Pin.ESP32_GPIO_PINS -> Pin.in_pins (PyInt z) = false.
Proof.
  intros H. destruct (Pin.in_pins (PyInt z)) eqn:E; [|reflexivity].
  apply in_pins_In in E. contradiction.
Qed.

(** X1: [DigitalInOut(esp, z)] with an integer [z] of [ESP32_GPIO_PINS]
    returns an object that holds a pin with id [z], mode IN and level
    LOW, has direction INPUT and no drive mode yet, and has sent the
    driver exactly [set_pin_mode(z, 0)]; with any other integer it raises
    the invalid-pin [AttributeError] and sends the driver nothing. *)
Theorem DigitalInOut_new_effect (z : Z) (driver : ESP_SPIcontrol) :
  (In z Pin.ESP32_GPIO_PINS ->
   DigitalInOut.new driver (PyInt z) =
   (Return tt,
    World (DigitalInOut.mk (Some (Pin.mk (PyInt z) Pin.IN (PyInt Pin.LOW)))
             (Some (PyDirection INPUT)) None None)
          (driver ++ [set_pin_mode (PyInt z) 0])))
  /\
  (~ In z Pin.ESP32_GPIO_PINS ->
   fails_with (DigitalInOut.new driver (PyInt z)) InvalidPinError
   /\ esp (state_after (DigitalInOut.new driver (PyInt z))) = driver).
Proof.
  split; intros H.
  - apply in_pins_In in H.
    unfold DigitalInOut.new, DigitalInOut.__init__, bind at 1.
    unfold Pin.__init__. cbn [esp self]. rewrite H. reflexivity.
  - apply not_in_pins in H.
    unfold fails_with, DigitalInOut.new, DigitalInOut.__init__, bind at 1.
    unfold Pin.__init__. cbn [esp self]. rewrite H. cbn. split; [|reflexivity].
    eexists. split; reflexivity.
Qed.

Lemma DigitalInOut_new_effect_witness :
  esp (state_after (DigitalInOut.new [] (PyInt 12))) = [set_pin_mode (PyInt 12) 0]
  /\ esp (state_after
            (DigitalInOut.new [set_pin_mode (PyInt 12) 0] (PyInt 3)))
     = [set_pin_mode (PyInt 12) 0].
Proof.
  split.
  - destruct (DigitalInOut_new_effect 12 []) as [Hin _].
    rewrite Hin; [reflexivity | simpl; tauto].
  - destruct (DigitalInOut_new_effect 3 [set_pin_mode (PyInt 12) 0]) as [_ Hout].
    apply Hout. simpl. intros H.
    repeat (destruct H as [H|H]; [discriminate H|]). exact H.
Defined.



(* ------------------------------------------------------------------ *)
(** ** [Pin.init] and [Pin.value] by argument *)

(** X3: [Pin.init(mode)] does nothing at all for [None]; for a mode equal
    to 0 or 1 (which includes [False] and [True]) it stores the integer
    constant as [_mode], keeps id and level, and sends exactly
    [set_pin_mode(id, mode)]; for anything else it raises
    [RuntimeError("Invalid mode defined")] and changes nothing. *)
Theorem Pin_init_by_argument (mode : pyval) (p : Pin.t) (e : ESP_SPIcontrol) :
  (mode = PyNone -> Pin.init mode (World p e) = (Return tt, World p e))
  /\ (forall c, as_int mode = Some c -> c = 0 \/ c = 1 ->
        Pin.init mode (World p e) =
        (Return tt,
         World (Pin.mk (Pin.id p) c (Pin._value p))
               (e ++ [set_pin_mode (Pin.id p) c])))
  /\ (mode <> PyNone ->
      (forall c, as_int mode = Some c -> c <> 0 /\ c <> 1) ->
      Pin.init mode (World p e)
      = (Raise (RuntimeError "Invalid mode defined"), World p e)
      /\ fails_with (Pin.init mode (World p e)) InvalidModeError).
Proof.
  split; [|split].
  - intros ->. reflexivity.
  - intros c Hc Hv. unfold Pin.init, eq_int.
    assert (Hn : ne_None mode = true) by (destruct mode; try discriminate; reflexivity).
    rewrite Hn, Hc. destruct Hv as [-> | ->]; reflexivity.
  - intros Hn Hc.
    assert (E : Pin.init mode (World p e)
                = (Raise (RuntimeError "Invalid mode defined"), World p e)).
    { unfold Pin.init, eq_int.
      destruct mode as [|b|z|s|d|m|a]; try reflexivity.
      - contradiction Hn. reflexivity.
      - destruct (Hc _ eq_refl) as [H0 H1]. destruct b; congruence.
      - destruct (Hc _ eq_refl) as [H0 H1]. simpl.
        apply Z.eqb_neq in H0, H1. unfold Pin.IN, Pin.OUT. rewrite H0, H1.
        reflexivity. }
    split; [exact E|]. unfold fails_with. rewrite E.
    eexists. split; reflexivity.
Qed.

Lemma Pin_init_by_argument_witness :
  Pin.init (PyBool true) (World (Pin.mk (PyInt 5) 0 (PyInt 0)) [])
  = (Return tt, World (Pin.mk (PyInt 5) 1 (PyInt 0)) [set_pin_mode (PyInt 5) 1])
  /\ fails_with (Pin.init (PyInt 2) (World (Pin.mk (PyInt 5) 0 (PyInt 0)) []))
       InvalidModeError
  /\ fails_with (Pin.init (PyStr "OUT") (World (Pin.mk (PyInt 5) 0 (PyInt 0)) []))
       InvalidModeError.
Proof.
  split; [|split].
  - destruct (Pin_init_by_argument (PyBool true) (Pin.mk (PyInt 5) 0 (PyInt 0)) [])
      as (_ & H & _).
    exact (H 1 eq_refl (or_intror eq_refl)).
  - destruct (Pin_init_by_argument (PyInt 2) (Pin.mk (PyInt 5) 0 (PyInt 0)) [])
      as (_ & _ & H).
    apply H; [discriminate|]. intros c Hc. injection Hc as <-.
    split; discriminate.
  - destruct (Pin_init_by_argument (PyStr "OUT") (Pin.mk (PyInt 5) 0 (PyInt 0)) [])
      as (_ & _ & H).
    apply H; [discriminate|]. intros c Hc. discriminate Hc.
Defined.

(** X4: [Pin.value(val)] for a value equal to 0 or 1 stores the argument
    itself as [_value] (so [True] is kept as [True]), keeps id and mode,
    and sends exactly [set_digital_write(id, 0 or 1)]; for [None] it
    raises [NotImplementedError]; for anything else it raises
    [RuntimeError("Invalid value for pin")]; a raising call changes
    nothing. *)
Theorem Pin_value_by_argument (val : pyval) (p : Pin.t) (e : ESP_SPIcontrol) :
  (forall c, as_int val = Some c -> c = 0 \/ c = 1 ->
     Pin.value val (World p e) =
     (Return tt,
      World (Pin.mk (Pin.id p) (Pin._mode p) val)
            (e ++ [set_digital_write (Pin.id p) c])))
  /\ (val = PyNone ->
      fails_with (Pin.value val (World p e)) UnsupportedOperationError
      /\ state_after (Pin.value val (World p e)) = World p e)
  /\ (val <> PyNone ->
      (forall c, as_int val = Some c -> c <> 0 /\ c <> 1) ->
      Pin.value val (World p e)
      = (Raise (RuntimeError "Invalid value for pin"), World p e)
      /\ fails_with (Pin.value val (World p e)) InvalidValueError).
Proof.
  split; [|split].
  - intros c Hc Hv. unfold Pin.value, eq_int.
    assert (Hn : ne_None val = true) by (destruct val; try discriminate; reflexivity).
    rewrite Hn, Hc. destruct Hv as [-> | ->]; reflexivity.
  - intros ->. split; [|reflexivity].
    eexists. split; reflexivity.
  - intros Hn Hc.
    assert (E : Pin.value val (World p e)
                = (Raise (RuntimeError "Invalid value for pin"), World p e)).
    { unfold Pin.value, eq_int.
      destruct val as [|b|z|s|d|m|a]; try reflexivity.
      - contradiction Hn. reflexivity.
      - destruct (Hc _ eq_refl) as [H0 H1]. destruct b; congruence.
      - destruct (Hc _ eq_refl) as [H0 H1]. simpl.
        apply Z.eqb_neq in H0, H1. unfold Pin.LOW, Pin.HIGH. rewrite H0, H1.
        reflexivity. }
    split; [exact E|]. unfold fails_with. rewrite E.
    eexists. split; reflexivity.
Qed.

Lemma Pin_value_by_argument_witness :
  Pin.value (PyBool true) (World (Pin.mk (PyInt 5) 1 (PyInt 0)) [])
  = (Return tt,
     World (Pin.mk (PyInt 5) 1 (PyBool true)) [set_digital_write (PyInt 5) 1])
  /\ fails_with (Pin.value PyNone (World (Pin.mk (PyInt 5) 1 (PyInt 0)) []))
       UnsupportedOperationError
  /\ fails_with (Pin.value (PyInt 255) (World (Pin.mk (PyInt 5) 1 (PyInt 0)) []))
       InvalidValueError.
Proof.
  split; [|split].
  - destruct (Pin_value_by_argument (PyBool true) (Pin.mk (PyInt 5) 1 (PyInt 0)) [])
      as (H & _ & _).
    exact (H 1 eq_refl (or_intror eq_refl)).
  - destruct (Pin_value_by_argument PyNone (Pin.mk (PyInt 5) 1 (PyInt 0)) [])
      as (_ & H & _).
    exact (proj1 (H eq_refl)).
  - destruct (Pin_value_by_argument (PyInt 255) (Pin.mk (PyInt 5) 1 (PyInt 0)) [])
      as (_ & _ & H).
    apply H; [discriminate|]. intros c Hc. injection Hc as <-.
    split; discriminate.
Defined.

(** X5: the [repr] of a pin made with an integer identifier is that
    integer in decimal: reading the text back as a number gives the
    identifier, so two such pins have the same text only if they have
    the same id. *)
Theorem Pin_repr_reads_back (z : Z) (driver driver' : ESP_SPIcontrol) (p : Pin.t) :
  Pin.__init__ (PyInt z) driver = (Return p, driver') ->
  exists s, Pin.__repr__ p = Some s
            /\ option_map Z.of_int (NilZero.int_of_string s) = Some z.
Proof.
  unfold Pin.__init__. destruct (Pin.in_pins (PyInt z)).
  - intros H. injection H as <- _. unfold Pin.__repr__. simpl.
    eexists. split; [reflexivity|].
    rewrite NilZero.isi.
    + simpl. rewrite DecimalZ.of_to. reflexivity.
    + destruct z; simpl; try discriminate.
      intros H. injection H as H. exact (Unsigned.to_uint_nonnil _ H).
    + destruct z; simpl; try discriminate.
      intros H. injection H as H. exact (Unsigned.to_uint_nonnil _ H).
  - simpl. discriminate.
Qed.

Lemma Pin_repr_reads_back_witness :
  exists s, Pin.__repr__ (Pin.mk (PyInt 33) 0 (PyInt 0)) = Some s
            /\ option_map Z.of_int (NilZero.int_of_string s) = Some 33.
Proof.
  exact (Pin_repr_reads_back 33 [] [] (Pin.mk (PyInt 33) 0 (PyInt 0)) eq_refl).
Defined.

(* ------------------------------------------------------------------ *)
(** ** Direction and drive mode as stored attributes *)

(** X6: on a live object, assigning [Direction.INPUT] returns normally,
    sets the pin's mode to IN without touching its stored level or the
    stored drive mode, and sends exactly [set_pin_mode(id, 0)];
    afterwards every assignment to [value] and every read of [drive_mode]
    raises [AttributeError("Not an output")] and changes nothing. *)
Theorem direction_INPUT_effect
    (p : Pin.t) (dir dm dm' : option pyval) (e : ESP_SPIcontrol) :
  let w' := World (DigitalInOut.mk
                     (Some (Pin.mk (Pin.id p) Pin.IN (Pin._value p)))
                     (Some (PyDirection INPUT)) dm dm')
                  (e ++ [set_pin_mode (Pin.id p) 0]) in
  DigitalInOut.direction_setter (PyDirection INPUT)
    (World (DigitalInOut.mk (Some p) dir dm dm') e) = (Return tt, w')
  /\ (forall val,
        DigitalInOut.value_setter val w'
        = (Raise (AttributeError "Not an output"), w'))
  /\ DigitalInOut.drive_mode w' = (Raise (AttributeError "Not an output"), w').
Proof. repeat split. Qed.

(** X7: the [direction] getter returns the object last assigned to
    [direction], whatever that object is and whether or not the
    assignment raised (invalid direction, released pin). *)
Theorem direction_reads_last_assignment (v : pyval) (w : world DigitalInOut.t) :
  result (DigitalInOut.direction
            (state_after (DigitalInOut.direction_setter v w))) = Return v.
Proof.
  destruct w as [[[p|] dir dm dm'] e].
  - destruct v as [| | | |[|]| |]; reflexivity.
  - destruct v as [| | | |[|]| |]; reflexivity.
Qed.

(** X8: the [drive_mode] setter validates nothing.  On a live object
    with direction OUTPUT, assigning any object other than
    [DriveMode.OPEN_DRAIN] returns normally and [drive_mode] then reads
    that object back; unless the object is [DriveMode.PUSH_PULL], nothing
    but the stored drive mode changes and the driver is sent nothing. *)
Theorem drive_mode_reads_back
    (m : pyval) (p : Pin.t) (dm dm' : option pyval) (e : ESP_SPIcontrol) :
  is_DriveMode m OPEN_DRAIN = false ->
  let w := World (DigitalInOut.mk (Some p) (Some (PyDirection OUTPUT)) dm dm') e in
  let r := DigitalInOut.drive_mode_setter m w in
  result r = Return tt
  /\ result (DigitalInOut.drive_mode (state_after r)) = Return m
  /\ (is_DriveMode m PUSH_PULL = false ->
      state_after r
      = World (DigitalInOut.mk (Some p) (Some (PyDirection OUTPUT)) (Some m) dm') e).
Proof.
  intros Hod w r. subst r w.
  destruct (is_DriveMode m PUSH_PULL) eqn:Hpp.
  - apply is_DriveMode_true in Hpp. subst m.
    rewrite drive_mode_setter_PUSH_PULL. repeat split. discriminate.
  - unfold DigitalInOut.drive_mode_setter, bind, set_self, modify.
    rewrite Hod, Hpp. repeat split.
Qed.

Lemma drive_mode_reads_back_witness :
  let w := state_after (DigitalInOut.direction_setter (PyDirection OUTPUT) dio5) in
  let r := DigitalInOut.drive_mode_setter (PyInt 7) w in
  result r = Return tt
  /\ result (DigitalInOut.drive_mode (state_after r)) = Return (PyInt 7)
  /\ esp (state_after r) = esp w.
Proof.
  intros w r.
  destruct (drive_mode_reads_back (PyInt 7) (Pin.mk (PyInt 5) 1 (PyInt 0))
              (Some (PyDriveMode PUSH_PULL)) None
              [set_pin_mode (PyInt 5) 0; set_pin_mode (PyInt 5) 1;
               set_digital_write (PyInt 5) 0; set_pin_mode (PyInt 5) 1]
              eq_refl)
    as (Hret & Hread & Hstate).
  split; [exact Hret|]. split; [exact Hread|].
  exact (f_equal esp (Hstate eq_refl)).
Defined.

(** X9: the drive-mode argument of [switch_to_output] influences nothing
    but the unused attribute [_drive_mode]: for any object, released or
    not, two calls that differ in that argument only have the same
    outcome and leave the same pin, direction, drive mode and driver log.
    On a live object the call returns normally for every value and mode,
    sends exactly [set_pin_mode(id, 1)], [set_digital_write(id, 0)],
    [set_pin_mode(id, 1)], [set_digital_write(id, level)] with [level] the
    truth value of the value argument, and leaves [drive_mode] reading
    [PUSH_PULL]. *)
Theorem switch_to_output_ignores_drive_mode (val : pyval) :
  (forall (m1 m2 : pyval) (w : world DigitalInOut.t),
     let r1 := DigitalInOut.switch_to_output val m1 w in
     let r2 := DigitalInOut.switch_to_output val m2 w in
     result r1 = result r2
     /\ esp (state_after r1) = esp (state_after r2)
     /\ DigitalInOut._pin (self (state_after r1))
        = DigitalInOut._pin (self (state_after r2))
     /\ DigitalInOut.direction (state_after r1)
        = (result (DigitalInOut.direction (state_after r2)), state_after r1)
     /\ result (DigitalInOut.drive_mode (state_after r1))
        = result (DigitalInOut.drive_mode (state_after r2)))
  /\
  (forall (m : pyval) (p : Pin.t) (dir dm dm' : option pyval) (e : ESP_SPIcontrol),
     let w := World (DigitalInOut.mk (Some p) dir dm dm') e in
     let r := DigitalInOut.switch_to_output val m w in
     let level := if truthy val then 1 else 0 in
     result r = Return tt
     /\ issued w r [set_pin_mode (Pin.id p) 1; set_digital_write (Pin.id p) 0;
                    set_pin_mode (Pin.id p) 1; set_digital_write (Pin.id p) level]
     /\ DigitalInOut._pin (self (state_after r))
        = Some (Pin.mk (Pin.id p) Pin.OUT (PyInt level))
     /\ result (DigitalInOut.drive_mode (state_after r))
        = Return (PyDriveMode PUSH_PULL)).
Proof.
  split.
  - intros m1 m2 [[[p|] dir dm dm'] e]; cbv zeta.
    + rewrite !switch_to_output_live. repeat split.
    + repeat split.
  - intros m p dir dm dm' e; cbv zeta.
    rewrite switch_to_output_live. repeat split.
Qed.

(* ------------------------------------------------------------------ *)
(** ** What every script keeps true *)

Lemma last_mode_app (cs cs' : list command) :
  last_mode (cs ++ cs') =
  fold_left (fun acc c =>
               match c with
               | set_pin_mode _ m => Some m
               | set_digital_write _ _ => acc
               end) cs' (last_mode cs).
Proof. unfold last_mode. apply fold_left_app. Qed.

Lemma last_write_app (cs cs' : list command) :
  last_write (cs ++ cs') =
  fold_left (fun acc c =>
               match c with
               | set_digital_write _ l => Some l
               | set_pin_mode _ _ => acc
               end) cs' (last_write cs).
Proof. unfold last_write. apply fold_left_app. Qed.

Lemma value_setter_not_OUTPUT (pin : option Pin.t) (d : pyval)
    (dm dm' : option pyval) (e : ESP_SPIcontrol) (val : pyval) :
  is_Direction d OUTPUT = false ->
  DigitalInOut.value_setter val (World (DigitalInOut.mk pin (Some d) dm dm') e)
  = (Raise (AttributeError "Not an output"),
     World (DigitalInOut.mk pin (Some d) dm dm') e).
Proof.
  intros E. unfold DigitalInOut.value_setter, DigitalInOut.direction, bind, get.
  simpl. unfold ret. rewrite E. reflexivity.
Qed.

(** No operation gives a released object its pin back, sends a command
    for it, or unsets its direction. *)
Lemma released_step (o : DigitalInOut.op) (w : world DigitalInOut.t) :
  released w = true ->
  let w' := state_after (DigitalInOut.run o w) in
  released w' = true
  /\ esp w' = esp w
  /\ ((exists d, DigitalInOut.__direction (self w) = Some d) ->
      exists d, DigitalInOut.__direction (self w') = Some d).
Proof.
  destruct w as [[[p|] dir dm dm'] e]; [discriminate|]. intros _.
  destruct o as [|v| |val| |m|val m|pull|]; cbv zeta; unfold DigitalInOut.run.
  - destruct dir; repeat split; auto.
  - destruct v as [| | | |[|]| |]; repeat split; intros _; eexists; reflexivity.
  - repeat split; auto.
  - destruct (then_ret (DigitalInOut.value_setter val) PyNone
                (World (DigitalInOut.mk None dir dm dm') e)) as [_ ->].
    destruct dir as [d|]; [|repeat split; auto].
    destruct (is_Direction d OUTPUT) eqn:E.
    + apply is_Direction_true in E. subst d. repeat split; auto.
    + rewrite (value_setter_not_OUTPUT None d dm dm' e val E). repeat split; auto.
  - rewrite drive_mode_getter_pure. repeat split; auto.
  - destruct m as [| | | | |[|]|]; repeat split; auto.
  - repeat split. intros _. eexists; reflexivity.
  - repeat split; auto.
  - repeat split; auto.
Qed.

Ltac about_all :=
  repeat (apply Forall_app; split); try assumption;
  repeat (first [apply Forall_nil | apply Forall_cons]); simpl; auto.

(** Close a [consistent] goal once the state is in evaluated form. *)
Ltac consistent_tac :=
  unfold consistent; simpl;
  split; [rewrite <- ?app_assoc, ?app_nil_r; reflexivity|];
  split; [rewrite ?app_nil_r; about_all|];
  split; [eauto|];
  let H := fresh "Hpin" in
  intros ? H; first [discriminate H | injection H as <-]; simpl;
  rewrite ?app_nil_r, ?last_mode_app, ?last_write_app; simpl;
  repeat split; eauto; try discriminate.

Ltac at_most_four := simpl; repeat constructor.

(** One operation keeps an object consistent, and issues at most four
    commands. *)
Lemma consistent_step (i : pyval) (driver : ESP_SPIcontrol)
    (cs : list command) (o : DigitalInOut.op) (w : world DigitalInOut.t) :
  consistent i driver cs w ->
  exists cs',
    consistent i driver (cs ++ cs') (state_after (DigitalInOut.run o w))
    /\ (List.length cs' <= 4)%nat.
Proof.
  intros (He & Hall & Hd & Hp).
  destruct (released w) eqn:Hrel.
  { destruct (released_step o w Hrel) as (Hrel' & He' & Hd').
    exists []. split; [|at_most_four].
    rewrite app_nil_r. unfold consistent. rewrite He'.
    split; [assumption|]. split; [assumption|]. split; [auto|].
    intros p Hpin. unfold released in Hrel'. rewrite Hpin in Hrel'.
    discriminate. }
  destruct w as [[[[pid pmode pval]|] dir dm dm'] e]; [|discriminate].
  destruct Hd as [d Hd]. simpl in He, Hd. subst dir e.
  destruct (Hp _ eq_refl) as (Hid & Hm & Hv & Hdm). simpl in Hid, Hm, Hv, Hdm.
  subst pid pval. clear Hp Hrel.
  set (p0 := Pin.mk i pmode
               (PyInt match last_write cs with
                      | Some l => l
                      | None => Pin.LOW
                      end)).
  destruct o as [|v| |val| |m|val m|pull|]; unfold DigitalInOut.run.
  - (* direction *)
    exists []. split; [|at_most_four]. consistent_tac.
  - (* direction = v *)
    destruct (then_ret (DigitalInOut.direction_setter v) PyNone
                (World (DigitalInOut.mk (Some p0) (Some d) dm dm')
                       (driver ++ cs))) as [_ ->].
    destruct (is_Direction v OUTPUT) eqn:Eo.
    { apply is_Direction_true in Eo. subst v.
      rewrite direction_setter_OUTPUT.
      exists [set_pin_mode (Pin.id p0) 1; set_digital_write (Pin.id p0) 0;
              set_pin_mode (Pin.id p0) 1].
      split; [|at_most_four]. consistent_tac. }
    destruct (is_Direction v INPUT) eqn:Ei.
    { apply is_Direction_true in Ei. subst v.
      exists [set_pin_mode i 0]. split; [|at_most_four]. consistent_tac. }
    exists []. split; [|at_most_four].
    assert (E : DigitalInOut.direction_setter v
                  (World (DigitalInOut.mk (Some p0) (Some d) dm dm')
                         (driver ++ cs))
                = (Raise (AttributeError "Not a Direction"),
                   World (DigitalInOut.mk (Some p0) (Some v) dm dm')
                         (driver ++ cs))).
    { unfold DigitalInOut.direction_setter, bind, set_self, modify.
      rewrite Eo, Ei. reflexivity. }
    rewrite E. consistent_tac.
    intros Hv. injection Hv as ->. discriminate Eo.
  - (* value *)
    unfold p0. rewrite value_getter_live.
    exists []. split; [|at_most_four]. consistent_tac.
  - (* value = val *)
    destruct (then_ret (DigitalInOut.value_setter val) PyNone
                (World (DigitalInOut.mk (Some p0) (Some d) dm dm')
                       (driver ++ cs))) as [_ ->].
    destruct (is_Direction d OUTPUT) eqn:Eo.
    + apply is_Direction_true in Eo. subst d.
      rewrite value_setter_OUTPUT.
      exists [set_digital_write i (if truthy val then 1 else 0)].
      split; [|at_most_four].
      destruct (truthy val); consistent_tac.
    + rewrite (value_setter_not_OUTPUT _ d dm dm' _ val Eo).
      exists []. split; [|at_most_four]. consistent_tac.
  - (* drive_mode *)
    rewrite drive_mode_getter_pure.
    exists []. split; [|at_most_four]. consistent_tac.
  - (* drive_mode = m *)
    destruct (then_ret (DigitalInOut.drive_mode_setter m) PyNone
                (World (DigitalInOut.mk (Some p0) (Some d) dm dm')
                       (driver ++ cs))) as [_ ->].
    destruct (is_DriveMode m OPEN_DRAIN) eqn:Eod.
    { apply is_DriveMode_true in Eod. subst m.
      rewrite drive_mode_setter_OPEN_DRAIN.
      exists []. split; [|at_most_four]. consistent_tac. }
    destruct (is_DriveMode m PUSH_PULL) eqn:Epp.
    { apply is_DriveMode_true in Epp. subst m.
      rewrite drive_mode_setter_PUSH_PULL.
      exists [set_pin_mode i 1]. split; [|at_most_four]. consistent_tac. }
    exists []. split; [|at_most_four].
    unfold DigitalInOut.drive_mode_setter, bind, set_self, modify.
    rewrite Eod, Epp. consistent_tac.
  - (* switch_to_output *)
    destruct (then_ret (DigitalInOut.switch_to_output val m) PyNone
                (World (DigitalInOut.mk (Some p0) (Some d) dm dm')
                       (driver ++ cs))) as [_ ->].
    rewrite switch_to_output_live.
    exists [set_pin_mode i 1; set_digital_write i 0; set_pin_mode i 1;
            set_digital_write i (if truthy val then 1 else 0)].
    split; [|at_most_four].
    destruct (truthy val); consistent_tac.
  - (* switch_to_input *)
    exists []. split; [|at_most_four]. consistent_tac.
  - (* deinit *)
    exists []. split; [|at_most_four]. consistent_tac.
Qed.

Lemma consistent_exec (i : pyval) (driver : ESP_SPIcontrol)
    (os : list DigitalInOut.op) :
  forall (cs : list command) (w : world DigitalInOut.t),
    consistent i driver cs w ->
    exists cs',
      consistent i driver (cs ++ cs') (DigitalInOut.exec os w)
      /\ (List.length cs' <= 4 * List.length os)%nat.
Proof.
  induction os as [|o os IH]; intros cs w Hc.
  - exists []. rewrite app_nil_r. split; [exact Hc | simpl; constructor].
  - destruct (consistent_step i driver cs o w Hc) as (c1 & Hc1 & Hl1).
    destruct (IH _ _ Hc1) as (c2 & Hc2 & Hl2).
    exists (c1 ++ c2). rewrite app_assoc. split; [exact Hc2|].
    rewrite length_app. simpl List.length.
    rewrite Nat.mul_succ_r, Nat.add_comm.
    apply Nat.add_le_mono; assumption.
Qed.

(** A freshly constructed object is consistent, and so is everything a
    script makes of it. *)
Lemma reachable_consistent (z : Z) (driver : ESP_SPIcontrol)
    (os : list DigitalInOut.op) :
  In z Pin.ESP32_GPIO_PINS ->
  exists cs,
    consistent (PyInt z) driver (set_pin_mode (PyInt z) 0 :: cs)
      (DigitalInOut.exec os (state_after (DigitalInOut.new driver (PyInt z))))
    /\ (List.length cs <= 4 * List.length os)%nat.
Proof.
  intros Hz.
  assert (H0 : consistent (PyInt z) driver [set_pin_mode (PyInt z) 0]
                 (state_after (DigitalInOut.new driver (PyInt z)))).
  { apply in_pins_In in Hz.
    unfold DigitalInOut.new, DigitalInOut.__init__, bind at 1.
    unfold Pin.__init__. cbn [esp self]. rewrite Hz.
    cbn. consistent_tac. }
  destruct (consistent_exec _ _ os _ _ H0) as (cs & Hc & Hl).
  exists cs. split; assumption.
Qed.

Lemma last_mode_code (i : pyval) (cs : list command) (m : Z) :
  Forall (about i) cs -> last_mode cs = Some m -> m = 0 \/ m = 1.
Proof.
  induction cs as [|c cs IH] using rev_ind; [discriminate|].
  intros Hall. apply Forall_app in Hall. destruct Hall as [Hcs Hc].
  rewrite last_mode_app. inversion Hc as [|? ? Hab _]; subst.
  destruct c as [j m'|j l]; simpl.
  - intros H. injection H as <-. exact (proj2 Hab).
  - exact (IH Hcs).
Qed.

Lemma last_write_code (i : pyval) (cs : list command) :
  Forall (about i) cs ->
  match last_write cs with Some l => l | None => Pin.LOW end = 0
  \/ match last_write cs with Some l => l | None => Pin.LOW end = 1.
Proof.
  induction cs as [|c cs IH] using rev_ind; [left; reflexivity|].
  intros Hall. apply Forall_app in Hall. destruct Hall as [Hcs Hc].
  rewrite last_write_app. inversion Hc as [|? ? Hab _]; subst.
  destruct c as [j m'|j l]; simpl.
  - exact (IH Hcs).
  - exact (proj2 Hab).
Qed.

Lemma five_is_a_pin : In 5 Pin.ESP32_GPIO_PINS.
Proof. simpl. tauto. Qed.

(** X10: whatever operations are run on a [DigitalInOut] made for a valid
    integer pin [z], raising or not, as long as it holds a pin that pin
    still has id [z], its stored mode is IN (0) or OUT (1), and its
    stored level is the integer 0 or 1. *)
Theorem script_keeps_pin_well_formed
    (z : Z) (driver : ESP_SPIcontrol) (os : list DigitalInOut.op) (p : Pin.t) :
  In z Pin.ESP32_GPIO_PINS ->
  DigitalInOut._pin
    (self (DigitalInOut.exec os
             (state_after (DigitalInOut.new driver (PyInt z))))) = Some p ->
  Pin.id p = PyInt z
  /\ (Pin._mode p = Pin.IN \/ Pin._mode p = Pin.OUT)
  /\ (Pin._value p = PyInt Pin.LOW \/ Pin._value p = PyInt Pin.HIGH).
Proof.
  intros Hz Hp.
  destruct (reachable_consistent z driver os Hz)
    as (cs & (_ & Hall & _ & Hpin) & _).
  destruct (Hpin p Hp) as (Hid & Hm & Hv & _).
  split; [exact Hid|]. split.
  - exact (last_mode_code _ _ _ Hall Hm).
  - rewrite Hv. destruct (last_write_code _ _ Hall) as [-> | ->]; auto.
Qed.

Lemma script_keeps_pin_well_formed_witness :
  exists p,
    DigitalInOut._pin (self (DigitalInOut.exec blink dio5)) = Some p
    /\ Pin.id p = PyInt 5
    /\ (Pin._mode p = Pin.IN \/ Pin._mode p = Pin.OUT)
    /\ (Pin._value p = PyInt Pin.LOW \/ Pin._value p = PyInt Pin.HIGH).
Proof.
  exists (Pin.mk (PyInt 5) 1 (PyInt 1)). split; [reflexivity|].
  exact (script_keeps_pin_well_formed 5 [] blink (Pin.mk (PyInt 5) 1 (PyInt 1))
           five_is_a_pin eq_refl).
Defined.

(** X11: under the same scripts the two getters never meet an attribute
    that was not stored: [direction] always returns, and while the
    object holds its pin and its direction is OUTPUT, [drive_mode]
    returns too. *)
Theorem script_getters_find_their_attributes
    (z : Z) (driver : ESP_SPIcontrol) (os : list DigitalInOut.op) :
  In z Pin.ESP32_GPIO_PINS ->
  let w := DigitalInOut.exec os
             (state_after (DigitalInOut.new driver (PyInt z))) in
  (exists d, DigitalInOut.direction w = (Return d, w))
  /\ (released w = false ->
      DigitalInOut.direction w = (Return (PyDirection OUTPUT), w) ->
      exists m, DigitalInOut.drive_mode w = (Return m, w)).
Proof.
  intros Hz w.
  destruct (reachable_consistent z driver os Hz)
    as (cs & (_ & _ & [d Hd] & Hpin) & _).
  fold w in Hd, Hpin. clearbody w.
  destruct w as [[pin dir dm dm'] e]. simpl in Hd, Hpin. subst dir.
  split; [exists d; reflexivity|].
  unfold released. simpl. destruct pin as [p|]; [|discriminate].
  intros _ Ho. injection Ho as ->.
  destruct (Hpin p eq_refl) as (_ & _ & _ & Hdm).
  destruct (Hdm eq_refl) as [m ->]. exists m. reflexivity.
Qed.

Lemma script_getters_find_their_attributes_witness :
  let w := DigitalInOut.exec blink dio5 in
  (exists d, DigitalInOut.direction w = (Return d, w))
  /\ exists m, DigitalInOut.drive_mode w = (Return m, w).
Proof.
  intros w.
  destruct (script_getters_find_their_attributes 5 [] blink five_is_a_pin)
    as [Hd Hm].
  split; [exact Hd | apply Hm; vm_compute; reflexivity].
Defined.

(** X12: a pin's stored mode and level mirror the driver: under the
    same scripts, while the object holds its pin, the stored mode is the
    mode of the last [set_pin_mode] the object has sent, and the stored
    level is the level of the last [set_digital_write] it has sent (LOW
    if it has sent none). *)
Theorem pin_mirrors_last_commands
    (z : Z) (driver : ESP_SPIcontrol) (os : list DigitalInOut.op) :
  In z Pin.ESP32_GPIO_PINS ->
  let w := DigitalInOut.exec os
             (state_after (DigitalInOut.new driver (PyInt z))) in
  exists cs,
    esp w = driver ++ cs
    /\ forall p, DigitalInOut._pin (self w) = Some p ->
         last_mode cs = Some (Pin._mode p)
         /\ Pin._value p = PyInt (match last_write cs with
                                  | Some l => l
                                  | None => Pin.LOW
                                  end).
Proof.
  intros Hz w.
  destruct (reachable_consistent z driver os Hz)
    as (cs & (He & _ & _ & Hpin) & _).
  exists (set_pin_mode (PyInt z) 0 :: cs). split; [exact He|].
  intros p Hp. destruct (Hpin p Hp) as (_ & Hm & Hv & _).
  split; assumption.
Qed.

Lemma pin_mirrors_last_commands_witness :
  exists cs,
    esp (DigitalInOut.exec blink dio5) = cs
    /\ forall p, DigitalInOut._pin (self (DigitalInOut.exec blink dio5)) = Some p ->
         last_mode cs = Some (Pin._mode p)
         /\ Pin._value p = PyInt (match last_write cs with
                                  | Some l => l
                                  | None => Pin.LOW
                                  end).
Proof.
  destruct (pin_mirrors_last_commands 5 [] blink five_is_a_pin) as (cs & He & H).
  exists cs. split; [exact He | exact H].
Defined.

(** X13: under the same scripts the driver log only grows: it is the log
    the object was constructed on, followed by [set_pin_mode(z, 0)] and
    then by at most four commands per operation, and every command the
    object has sent names pin [z] and carries the code 0 or 1. *)
Theorem script_commands_only_for_own_pin
    (z : Z) (driver : ESP_SPIcontrol) (os : list DigitalInOut.op) :
  In z Pin.ESP32_GPIO_PINS ->
  exists cs,
    esp (DigitalInOut.exec os (state_after (DigitalInOut.new driver (PyInt z))))
    = driver ++ set_pin_mode (PyInt z) 0 :: cs
    /\ Forall (about (PyInt z)) cs
    /\ (List.length cs <= 4 * List.length os)%nat.
Proof.
  intros Hz.
  destruct (reachable_consistent z driver os Hz)
    as (cs & (He & Hall & _ & _) & Hl).
  exists cs. split; [exact He|]. split; [|exact Hl].
  inversion Hall; assumption.
Qed.

Lemma script_commands_only_for_own_pin_witness :
  exists cs,
    esp (DigitalInOut.exec blink dio5) = set_pin_mode (PyInt 5) 0 :: cs
    /\ Forall (about (PyInt 5)) cs
    /\ (List.length cs <= 24)%nat.
Proof.
  exact (script_commands_only_for_own_pin 5 [] blink five_is_a_pin).
Defined.

(** X14: release is final.  Once an object has no pin, no sequence of
    operations gives it one again or sends the driver anything. *)
Theorem released_is_terminal
    (os : list DigitalInOut.op) (w : world DigitalInOut.t) :
  released w = true ->
  released (DigitalInOut.exec os w) = true
  /\ esp (DigitalInOut.exec os w) = esp w.
Proof.
  revert w. induction os as [|o os IH]; intros w Hr.
  - split; [exact Hr | reflexivity].
  - destruct (released_step o w Hr) as (Hr' & He' & _).
    destruct (IH _ Hr') as (Hr'' & He''). simpl.
    split; [exact Hr'' | rewrite He''; exact He'].
Qed.

Lemma released_is_terminal_witness :
  let w := state_after (DigitalInOut.deinit dio5) in
  released (DigitalInOut.exec blink w) = true
  /\ esp (DigitalInOut.exec blink w) = [set_pin_mode (PyInt 5) 0].
Proof.
  exact (released_is_terminal blink (state_after (DigitalInOut.deinit dio5))
           eq_refl).
Defined.
